(** * Weapon-Detection_System: the React front end

    A shallow embedding of the two components of the front end,

    - [WebcamDetection] (the live webcam tab: [startWebcam], [stopWebcam],
      [startDetection] with its inner [sendFrame], [drawDetections], and the
      WebSocket [onmessage] handler), and
    - [App] (the upload tab: [fetchStats], [detectWeapons] and the statistics
      cards),

    followed by the properties of the frame-submission loop, of stopping, and
    of the statistics poll.

    Modelling conventions.

    - A function component is run once per render; [const [x, setX] =
      useState(..)] binds [x] to the value of that render.  Every function
      defined in the component body ([sendFrame], [stopWebcam], ...) is a
      closure over those bindings.  A closure is therefore modelled as a
      function of a [scope : State] (the bindings of the render that created
      it) and of the live [World]; the setters write to the live state, the
      plain reads ([isStreaming], [stream], [image]) read the scope.  Refs
      ([videoRef.current], [canvasRef.current]) are mutable cells and are read
      from the live world.
    - The browser is modelled by what the code asks of it: a clock, the list of
      pending [setTimeout] callbacks, and the list of [fetch] calls whose
      promise has not settled yet.  The environment drives the component with
      events (time passing, a timer firing, a request settling, a click).
    - Console output and similar effects are returned as a list of [Effect]s. *)

From Stdlib Require Import List String ZArith QArith Bool Lia PeanoNat Sorted.
Import ListNotations.
Local Open Scope string_scope.
Local Open Scope Z_scope.
Local Open Scope list_scope.

(** ** Promises returned by [fetch] *)

Module Fetch.

(** How [fetch(url, ...)] followed by [response.json()] ends.  [fetch]
    rejects on a network failure (connection refused, reset, timed out);
    otherwise it resolves to a response, whatever its HTTP status, and
    [response.json()] either rejects (the body is not JSON) or yields the
    decoded body. *)
Inductive Result (D : Type) : Type :=
| Rejected
| Response (ok : bool) (json : option D).

Arguments Rejected {D}.
Arguments Response {D} ok json.

(** The outcomes in which the promise chain [fetch(..).then(r => r.json())]
    is rejected. *)
Definition rejects {D : Type} (r : Result D) : bool :=
  match r with
  | Rejected => true
  | Response _ None => true
  | Response _ (Some _) => false
  end.

End Fetch.

(** Removing the [k]-th element of a list (a timer or request leaving its
    queue). *)
Fixpoint remove_nth {A : Type} (k : nat) (l : list A) : list A :=
  match k, l with
  | _, [] => []
  | O, _ :: tl => tl
  | S k', x :: tl => x :: remove_nth k' tl
  end.

(** ** WebcamDetection.jsx *)

Module Webcam.

(** A [MediaStream] object, by identity. *)
Definition MediaStream := nat.

(** One element of [data.detections]. *)
Record Detection := {
  bbox : Z * Z * Z * Z;
  class : string;
  confidence : Q;
  timestamp : Z
}.

(** The decoded body of a [/detect/video] response; [data_detections] is
    [None] when [data.detections] is absent (falsy), and [Some []] for an
    empty array, which is truthy. *)
Record Data := { data_detections : option (list Detection) }.

(** A decoded WebSocket message. *)
Record Message := { msg_type : string; msg_detections : list Detection }.

(** The five [useState] cells. *)
Record State := {
  isStreaming : bool;
  detections : list Detection;
  isLoading : bool;
  error : option string;
  stream : option MediaStream
}.

(** The [<video>] element behind [videoRef]. *)
Record Video := {
  srcObject : option MediaStream;
  paused : bool;
  videoWidth : Z;
  videoHeight : Z
}.

(** What has been painted on the overlay [<canvas>] since it was last
    cleared. *)
Inductive Paint :=
| StrokeRect (style : string) (x y w h : Z)
| FillRect (style : string) (x y w h : Z)
| FillText (style : string) (className : string) (conf : Q) (x y : Z).

Record Canvas := {
  width : Z;
  height : Z;
  painted : list Paint
}.

(** A pending [setTimeout(sendFrame, ms)]: the closure (given by the scope it
    was created in) and the time at which it becomes due. *)
Record Timer := { timer_scope : State; due : Z }.

(** A [fetch] issued by [sendFrame].  The body holds the frame drawn from the
    video in the same call and [Date.now()]; the frame is identified by that
    time. *)
Record Request := { req_id : nat; req_url : string; req_timestamp : Z }.

Record World := {
  state : State;
  videoRef : option Video;
  canvasRef : option Canvas;
  liveStreams : list MediaStream;   (* streams whose tracks are live *)
  now : Z;
  timers : list Timer;
  inflight : list Request;
  nextId : nat
}.

Inductive Effect :=
| Fetched (r : Request)
| TimeoutSet (scope : State) (ms : Z)
| ConsoleError (what : string)
| Uncaught (what : string).

(** A call either returns or throws. *)
Inductive Outcome (A : Type) : Type :=
| Returned (a : A)
| Threw (what : string).
Arguments Returned {A} a.
Arguments Threw {A} what.

(** *** Setters *)

Definition with_state (f : State -> State) (w : World) : World :=
  {| state := f (state w); videoRef := videoRef w; canvasRef := canvasRef w;
     liveStreams := liveStreams w; now := now w; timers := timers w;
     inflight := inflight w; nextId := nextId w |}.

Definition setIsStreaming (b : bool) : World -> World :=
  with_state (fun s =>
    {| isStreaming := b; detections := detections s; isLoading := isLoading s;
       error := error s; stream := stream s |}).

Definition setDetections (ds : list Detection) : World -> World :=
  with_state (fun s =>
    {| isStreaming := isStreaming s; detections := ds; isLoading := isLoading s;
       error := error s; stream := stream s |}).

Definition setIsLoading (b : bool) : World -> World :=
  with_state (fun s =>
    {| isStreaming := isStreaming s; detections := detections s; isLoading := b;
       error := error s; stream := stream s |}).

Definition setError (e : option string) : World -> World :=
  with_state (fun s =>
    {| isStreaming := isStreaming s; detections := detections s;
       isLoading := isLoading s; error := e; stream := stream s |}).

Definition setStream (m : option MediaStream) : World -> World :=
  with_state (fun s =>
    {| isStreaming := isStreaming s; detections := detections s;
       isLoading := isLoading s; error := error s; stream := m |}).

Definition with_video (v : option Video) (w : World) : World :=
  {| state := state w; videoRef := v; canvasRef := canvasRef w;
     liveStreams := liveStreams w; now := now w; timers := timers w;
     inflight := inflight w; nextId := nextId w |}.

Definition with_canvas (c : option Canvas) (w : World) : World :=
  {| state := state w; videoRef := videoRef w; canvasRef := c;
     liveStreams := liveStreams w; now := now w; timers := timers w;
     inflight := inflight w; nextId := nextId w |}.

Definition with_liveStreams (l : list MediaStream) (w : World) : World :=
  {| state := state w; videoRef := videoRef w; canvasRef := canvasRef w;
     liveStreams := l; now := now w; timers := timers w;
     inflight := inflight w; nextId := nextId w |}.

Definition with_now (t : Z) (w : World) : World :=
  {| state := state w; videoRef := videoRef w; canvasRef := canvasRef w;
     liveStreams := liveStreams w; now := t; timers := timers w;
     inflight := inflight w; nextId := nextId w |}.

Definition with_timers (l : list Timer) (w : World) : World :=
  {| state := state w; videoRef := videoRef w; canvasRef := canvasRef w;
     liveStreams := liveStreams w; now := now w; timers := l;
     inflight := inflight w; nextId := nextId w |}.

Definition with_inflight (l : list Request) (w : World) : World :=
  {| state := state w; videoRef := videoRef w; canvasRef := canvasRef w;
     liveStreams := liveStreams w; now := now w; timers := timers w;
     inflight := l; nextId := nextId w |}.

Definition with_nextId (n : nat) (w : World) : World :=
  {| state := state w; videoRef := videoRef w; canvasRef := canvasRef w;
     liveStreams := liveStreams w; now := now w; timers := timers w;
     inflight := inflight w; nextId := n |}.

(** *** drawDetections *)

Definition strokeOf (className : string) : string :=
  if String.eqb className "pistol" then "#ff0000" else "#ffff00".

Definition fillOf (className : string) : string :=
  if String.eqb className "pistol"
  then "rgba(255, 0, 0, 0.1)" else "rgba(255, 255, 0, 0.1)".

(** The body of the [forEach]: box outline, box fill, label. *)
Definition paintDetection (d : Detection) : list Paint :=
  let '(x1, y1, x2, y2) := bbox d in
  [ StrokeRect (strokeOf (class d)) x1 y1 (x2 - x1) (y2 - y1);
    FillRect (fillOf (class d)) x1 y1 (x2 - x1) (y2 - y1);
    FillText (strokeOf (class d)) (class d) (confidence d) x1 (y1 - 5) ].

Definition drawDetections (ds : list Detection) (w : World) : World :=
  match canvasRef w, videoRef w with
  | Some _, Some v =>
      with_canvas
        (Some {| width := videoWidth v; height := videoHeight v;
                 painted := flat_map paintDetection ds |}) w
  | _, _ => w
  end.

(** *** stopWebcam *)

Definition stopWebcam (scope : State) (w : World) : World :=
  let w1 :=
    match stream scope with
    | Some m =>
        setStream None
          (with_liveStreams (List.remove Nat.eq_dec m (liveStreams w)) w)
    | None => w
    end in
  let w2 :=
    match videoRef w1 with
    | Some v =>
        with_video
          (Some {| srcObject := None; paused := true;
                   videoWidth := videoWidth v; videoHeight := videoHeight v |})
          w1
    | None => w1
    end in
  let w3 := setDetections [] (setIsStreaming false w2) in
  match canvasRef w3 with
  | Some c =>
      with_canvas
        (Some {| width := width c; height := height c; painted := [] |}) w3
  | None => w3
  end.

(** *** startDetection and sendFrame *)

Definition detectUrl : string := "http://localhost:5000/detect/video".

(** The interval passed to [setTimeout]. *)
Definition frameInterval : Z := 100.

(** One call of [sendFrame].  [isStreaming] is the binding of the render in
    which the enclosing [startDetection] was created.  [ctx.drawImage] throws
    a [TypeError] when [videoRef.current] is [null]; the frame is drawn on a
    canvas local to [startDetection] and serialised at once, so nothing of it
    is kept in the world. *)
Definition sendFrame (scope : State) (w : World)
  : Outcome (World * list Effect) :=
  if negb (isStreaming scope) then Returned (w, [])
  else
    match videoRef w with
    | None => Threw "TypeError"
    | Some _ =>
        let req := {| req_id := nextId w; req_url := detectUrl;
                      req_timestamp := now w |} in
        let w1 := with_nextId (S (nextId w))
                    (with_inflight (inflight w ++ [req]) w) in
        if isStreaming scope then
          Returned
            (with_timers
               (timers w1 ++ [{| timer_scope := scope;
                                 due := now w1 + frameInterval |}]) w1,
             [Fetched req; TimeoutSet scope frameInterval])
        else Returned (w1, [Fetched req])
    end.

Definition startDetection (scope : State) (w : World)
  : World * list Effect :=
  match sendFrame scope w with
  | Returned r => r
  | Threw _ =>
      (setError (Some "Failed to start weapon detection") w,
       [ConsoleError "Error starting detection:"])
  end.

(** The promise chain attached to the [fetch] of [sendFrame], run when the
    request settles with [r]. *)
Definition onSettled (r : Fetch.Result Data) (w : World)
  : World * list Effect :=
  match r with
  | Fetch.Rejected => (w, [ConsoleError "Detection error:"])
  | Fetch.Response _ None => (w, [ConsoleError "Detection error:"])
  | Fetch.Response _ (Some data) =>
      match data_detections data with
      | Some ds => (drawDetections ds (setDetections ds w), [])
      | None => (w, [])
      end
  end.

(** *** startWebcam

    [granted] is what [getUserMedia] resolves to, [None] when it rejects.
    The function is run in one piece: the suspension at its [await] is not
    modelled. *)
Definition startWebcam (scope : State) (granted : option MediaStream)
    (w : World) : World * list Effect :=
  let w0 := setError None (setIsLoading true w) in
  match granted with
  | Some m =>
      let w1 := setStream (Some m)
                  (with_liveStreams (m :: liveStreams w0) w0) in
      let w2 :=
        match videoRef w1 with
        | Some v =>
            with_video
              (Some {| srcObject := Some m; paused := false;
                       videoWidth := videoWidth v;
                       videoHeight := videoHeight v |}) w1
        | None => w1
        end in
      let '(w3, effs) := startDetection scope w2 in
      (setIsLoading false (setIsStreaming true w3), effs)
  | None =>
      (setIsLoading false
         (setError
            (Some "Failed to access webcam. Please ensure camera permissions are granted.")
            w0),
       [ConsoleError "Error accessing webcam:"])
  end.

(** *** The WebSocket handlers *)

Definition onmessage (m : Message) (w : World) : World :=
  if String.eqb (msg_type m) "detection"
  then drawDetections (msg_detections m) (setDetections (msg_detections m) w)
  else w.

Definition onerror (w : World) : World * list Effect :=
  (setError (Some "Failed to connect to detection server") w,
   [ConsoleError "WebSocket error:"]).

(** *** The event loop *)

Inductive Event :=
| Elapse (ms : Z)                                  (* time passes *)
| TimerFires (k : nat)                             (* the k-th pending timer *)
| Settles (id : nat) (r : Fetch.Result Data)       (* request [id] settles *)
| StartClicked (scope : State) (granted : option MediaStream)
| StopClicked (scope : State)
| MessageArrives (m : Message)
| SocketFails.

Definition isRequest (id : nat) (r : Request) : bool := Nat.eqb (req_id r) id.

Definition outstanding (id : nat) (w : World) : bool :=
  existsb (isRequest id) (inflight w).

Definition step (w : World) (ev : Event) : World * list Effect :=
  match ev with
  | Elapse ms => (with_now (now w + Z.max 0 ms) w, [])
  | TimerFires k =>
      match nth_error (timers w) k with
      | Some t =>
          if due t <=? now w then
            let w' := with_timers (remove_nth k (timers w)) w in
            match sendFrame (timer_scope t) w' with
            | Returned r => r
            | Threw what => (w', [Uncaught what])
            end
          else (w, [])
      | None => (w, [])
      end
  | Settles id r =>
      if outstanding id w then
        onSettled r
          (with_inflight
             (filter (fun q => negb (isRequest id q)) (inflight w)) w)
      else (w, [])
  | StartClicked scope granted => startWebcam scope granted w
  | StopClicked scope => (stopWebcam scope w, [])
  | MessageArrives m => (onmessage m w, [])
  | SocketFails => onerror w
  end.

Fixpoint run (w : World) (evs : list Event) : World * list Effect :=
  match evs with
  | [] => (w, [])
  | ev :: rest =>
      let '(w1, e1) := step w ev in
      let '(w2, e2) := run w1 rest in
      (w2, e1 ++ e2)
  end.

Definition after (w : World) (evs : list Event) : World := fst (run w evs).
Definition effects (w : World) (evs : list Event) : list Effect :=
  snd (run w evs).

(** *** Vocabulary of the properties *)

(** A detector call that completes with the batch [ds]. *)
Definition completes (c : nat * list Detection) : Event :=
  Settles (fst c)
    (Fetch.Response true (Some {| data_detections := Some (snd c) |})).


(** What the user sees of a source: the stream, the streaming flag, the
    detections list and the overlay canvas. *)
Definition observable (w : World)
  : option MediaStream * bool * list Detection * option Canvas :=
  (stream (state w), isStreaming (state w), detections (state w),
   canvasRef w).

(** The component right after it has been mounted: initial state, both
    elements attached to their refs, nothing pending. *)
Definition mounted (vw vh cw ch : Z) : World :=
  {| state := {| isStreaming := false; detections := []; isLoading := false;
                 error := None; stream := None |};
     videoRef := Some {| srcObject := None; paused := true;
                         videoWidth := vw; videoHeight := vh |};
     canvasRef := Some {| width := cw; height := ch; painted := [] |};
     liveStreams := []; now := 0; timers := []; inflight := [];
     nextId := 0 |}.

(** The overlay shows nothing whenever the detections list is empty, and the
    video element is attached. *)
Definition overlayAgrees (w : World) : Prop :=
  videoRef w <> None /\
  (detections (state w) = [] ->
   forall c, canvasRef w = Some c -> painted c = []).

(** *** Concrete worlds used in the examples *)

Definition camera : MediaStream := 7%nat.

(** The bindings of a render in which the source is streaming. *)
Definition streamingScope : State :=
  {| isStreaming := true; detections := []; isLoading := false;
     error := None; stream := Some camera |}.

(** The bindings of the first render. *)
Definition idleScope : State :=
  {| isStreaming := false; detections := []; isLoading := false;
     error := None; stream := None |}.

(** A streaming component with nothing pending. *)
Definition streaming0 : World :=
  {| state := streamingScope;
     videoRef := Some {| srcObject := Some camera; paused := false;
                         videoWidth := 1280; videoHeight := 720 |};
     canvasRef := Some {| width := 300; height := 150; painted := [] |};
     liveStreams := [camera]; now := 0; timers := []; inflight := [];
     nextId := 0 |}.

Definition pistolAt (t : Z) : Detection :=
  {| bbox := (10, 20, 110, 220); class := "pistol"; confidence := 9 # 10;
     timestamp := t |}.

Definition fetchedIds (effs : list Effect) : list nat :=
  flat_map (fun e => match e with Fetched r => [req_id r] | _ => [] end) effs.

(** *** What the component renders

    The part of the JSX that depends on the state.  The texts of a detection
    item (upper-cased class, confidence with one decimal, local time) are
    string formatting of the detection and are not spelled out: an item is
    the icon and the detection it shows. *)

Definition gunIcon : string := "🔫".
Definition knifeIcon : string := "🔪".

Definition getWeaponIcon (weaponType : string) : string :=
  if String.eqb weaponType "pistol" then gunIcon else knifeIcon.

Inductive Control :=
| StartButton (disabled : bool) (label : string)
| StopButton.

Record View := {
  control : Control;
  errorMessage : option string;         (* [error && <div ..>] *)
  videoShown : bool;                    (* [display] of video and overlay *)
  placeholderShown : bool;
  panel : list (string * Detection);    (* empty: "No weapons detected" *)
  currentDetections : nat;
  streamStatus : string
}.

(** [error && ...]: [null] and the empty string render nothing. *)
Definition shownError (e : option string) : option string :=
  match e with
  | Some s => if String.eqb s "" then None else Some s
  | None => None
  end.

Definition render (s : State) : View :=
  {| control :=
       if negb (isStreaming s)
       then StartButton (isLoading s)
              (if isLoading s then "Starting..." else "Start Detection")
       else StopButton;
     errorMessage := shownError (error s);
     videoShown := isStreaming s;
     placeholderShown := negb (isStreaming s);
     panel := map (fun d => (getWeaponIcon (class d), d)) (detections s);
     currentDetections := List.length (detections s);
     streamStatus := if isStreaming s then "Active" else "Inactive" |}.

(** *** The component driven through what it renders

    A click reaches a handler only through a button that is rendered and
    enabled, and the handler is the closure of the render on screen, whose
    bindings are the current state. *)

Inductive UiEvent :=
| UiElapse (ms : Z)
| UiTimerFires (k : nat)
| UiSettles (id : nat) (r : Fetch.Result Data)
| UiStartClick (granted : option MediaStream)
| UiStopClick
| UiMessage (m : Message)
| UiSocketFails.

Definition uiStep (w : World) (e : UiEvent) : World * list Effect :=
  match e with
  | UiElapse ms => step w (Elapse ms)
  | UiTimerFires k => step w (TimerFires k)
  | UiSettles id r => step w (Settles id r)
  | UiStartClick granted =>
      match control (render (state w)) with
      | StartButton false _ => step w (StartClicked (state w) granted)
      | _ => (w, [])
      end
  | UiStopClick =>
      match control (render (state w)) with
      | StopButton => step w (StopClicked (state w))
      | _ => (w, [])
      end
  | UiMessage m => step w (MessageArrives m)
  | UiSocketFails => step w SocketFails
  end.

Fixpoint uiRun (w : World) (evs : list UiEvent) : World * list Effect :=
  match evs with
  | [] => (w, [])
  | e :: rest =>
      let '(w1, e1) := uiStep w e in
      let '(w2, e2) := uiRun w1 rest in
      (w2, e1 ++ e2)
  end.

(** The camera is held exactly while the component says it is streaming:
    the live tracks are those of the stream in the state, and the streaming
    flag is on exactly when there is such a stream. *)
Definition cameraHeld (w : World) : Prop :=
  liveStreams w =
    match stream (state w) with Some m => [m] | None => [] end /\
  isStreaming (state w) =
    match stream (state w) with Some _ => true | None => false end.

(** The overlay shows the boxes of the detections in the state, no more and
    no less. *)
Definition overlayShows (w : World) : Prop :=
  option_map painted (canvasRef w) =
  Some (flat_map paintDetection (detections (state w))).

(** *** Vocabulary for runs of the mounted component *)




End Webcam.

(** ** App.jsx *)

Module App.

Inductive Tab := upload | webcam.

(** One element of the [detections] array of a [/detect-image] response. *)
Record Detection := {
  class : string;
  confidence : Q;
  x : Z; y : Z; width : Z; height : Z
}.

(** The decoded body of a [/stats] response; a field is [None] when it is
    absent from the object. *)
Record Stats := {
  total_detections : option Z;
  knife_detections : option Z;
  pistol_detections : option Z;
  alerts_sent : option Z
}.

(** The decoded body of a [/detect-image] response. *)
Record DetectData := {
  processed_image : option string;
  data_detections : option (list Detection);
  alert_triggered : option bool
}.

(** The [useState] cells. *)
Record State := {
  activeTab : Tab;
  image : option string;
  processedImage : option string;
  detections : list Detection;
  loading : bool;
  stats : option Stats;
  alertTriggered : bool
}.

(** Which [await] a pending request will resume. *)
Inductive Pending := AwaitStats | AwaitDetect.

Record Request := {
  req_id : nat;
  req_url : string;
  req_body : option string;      (* the image of [JSON.stringify({ image })] *)
  req_resumes : Pending
}.

Record World := {
  state : State;
  inflight : list Request;
  nextId : nat
}.

Inductive Effect :=
| Fetched (r : Request)
| ConsoleError (what : string).

Definition with_state (f : State -> State) (w : World) : World :=
  {| state := f (state w); inflight := inflight w; nextId := nextId w |}.

Definition setImage (i : option string) : World -> World :=
  with_state (fun s =>
    {| activeTab := activeTab s; image := i;
       processedImage := processedImage s; detections := detections s;
       loading := loading s; stats := stats s;
       alertTriggered := alertTriggered s |}).

Definition setProcessedImage (i : option string) : World -> World :=
  with_state (fun s =>
    {| activeTab := activeTab s; image := image s; processedImage := i;
       detections := detections s; loading := loading s; stats := stats s;
       alertTriggered := alertTriggered s |}).

Definition setDetections (ds : list Detection) : World -> World :=
  with_state (fun s =>
    {| activeTab := activeTab s; image := image s;
       processedImage := processedImage s; detections := ds;
       loading := loading s; stats := stats s;
       alertTriggered := alertTriggered s |}).

Definition setLoading (b : bool) : World -> World :=
  with_state (fun s =>
    {| activeTab := activeTab s; image := image s;
       processedImage := processedImage s; detections := detections s;
       loading := b; stats := stats s;
       alertTriggered := alertTriggered s |}).

Definition setStats (d : option Stats) : World -> World :=
  with_state (fun s =>
    {| activeTab := activeTab s; image := image s;
       processedImage := processedImage s; detections := detections s;
       loading := loading s; stats := d;
       alertTriggered := alertTriggered s |}).

Definition setAlertTriggered (b : bool) : World -> World :=
  with_state (fun s =>
    {| activeTab := activeTab s; image := image s;
       processedImage := processedImage s; detections := detections s;
       loading := loading s; stats := stats s; alertTriggered := b |}).

Definition setActiveTab (t : Tab) : World -> World :=
  with_state (fun s =>
    {| activeTab := t; image := image s;
       processedImage := processedImage s; detections := detections s;
       loading := loading s; stats := stats s;
       alertTriggered := alertTriggered s |}).

(** Issuing a [fetch]: the request joins the pending ones. *)
Definition issue (url : string) (body : option string) (k : Pending)
    (w : World) : World * list Effect :=
  let req := {| req_id := nextId w; req_url := url; req_body := body;
                req_resumes := k |} in
  ({| state := state w; inflight := inflight w ++ [req];
      nextId := S (nextId w) |},
   [Fetched req]).

Definition statsUrl : string := "http://localhost:5000/stats".
Definition detectImageUrl : string := "http://localhost:5000/detect-image".

(** *** fetchStats

    The part up to [await fetch(..)], and the part that runs once the
    request has settled.  [response.json()] is only called on an [ok]
    response. *)
Definition fetchStats (w : World) : World * list Effect :=
  issue statsUrl None AwaitStats w.

Definition fetchStats_resume (r : Fetch.Result Stats) (w : World)
  : World * list Effect :=
  match r with
  | Fetch.Rejected => (w, [ConsoleError "Error fetching stats:"])
  | Fetch.Response true (Some data) => (setStats (Some data) w, [])
  | Fetch.Response true None => (w, [ConsoleError "Error fetching stats:"])
  | Fetch.Response false _ => (w, [])
  end.

(** *** handleImageUpload: the [reader.onload] callback *)
Definition onload (result : string) (w : World) : World :=
  setAlertTriggered false
    (setDetections [] (setProcessedImage None (setImage (Some result) w))).

(** *** detectWeapons *)

(** [!image]: [null] and the empty string are falsy. *)
Definition noImage (i : option string) : bool :=
  match i with
  | None => true
  | Some s => String.eqb s ""
  end.

Definition detectWeapons (scope : State) (w : World)
  : World * list Effect :=
  if noImage (image scope) then (w, [])
  else issue detectImageUrl (image scope) AwaitDetect (setLoading true w).

Definition detectWeapons_resume (r : Fetch.Result DetectData) (w : World)
  : World * list Effect :=
  match r with
  | Fetch.Response true (Some data) =>
      let w1 := setProcessedImage (processed_image data) w in
      let w2 :=
        setDetections
          (match data_detections data with Some ds => ds | None => [] end)
          w1 in
      let w3 :=
        setAlertTriggered
          (match alert_triggered data with Some b => b | None => false end)
          w2 in
      let '(w4, effs) := fetchStats w3 in
      (setLoading false w4, effs)
  | Fetch.Response true None =>
      (setLoading false w, [ConsoleError "Error during detection:"])
  | Fetch.Response false _ =>
      (setLoading false w, [ConsoleError "Detection failed"])
  | Fetch.Rejected =>
      (setLoading false w, [ConsoleError "Error during detection:"])
  end.

(** *** The statistics cards: [stats && (...)], each value [x || 0] *)

Definition orZero (v : option Z) : Z :=
  match v with Some z => z | None => 0 end.

Definition statCards (s : State) : option (Z * Z * Z * Z) :=
  match stats s with
  | Some d =>
      Some (orZero (total_detections d), orZero (knife_detections d),
            orZero (pistol_detections d), orZero (alerts_sent d))
  | None => None
  end.

(** *** The event loop *)

Inductive Event :=
| PollTick                                   (* [setInterval(fetchStats, 5000)] *)
| StatsSettles (id : nat) (r : Fetch.Result Stats)
| DetectSettles (id : nat) (r : Fetch.Result DetectData)
| DetectClicked (scope : State)
| ImageLoaded (result : string)
| TabClicked (t : Tab).

Definition resumes (id : nat) (k : Pending) (q : Request) : bool :=
  Nat.eqb (req_id q) id &&
  match k, req_resumes q with
  | AwaitStats, AwaitStats => true
  | AwaitDetect, AwaitDetect => true
  | _, _ => false
  end.

Definition settle (id : nat) (k : Pending) (w : World) : option World :=
  if existsb (resumes id k) (inflight w) then
    Some {| state := state w;
            inflight := filter (fun q => negb (resumes id k q)) (inflight w);
            nextId := nextId w |}
  else None.

Definition step (w : World) (ev : Event) : World * list Effect :=
  match ev with
  | PollTick => fetchStats w
  | StatsSettles id r =>
      match settle id AwaitStats w with
      | Some w' => fetchStats_resume r w'
      | None => (w, [])
      end
  | DetectSettles id r =>
      match settle id AwaitDetect w with
      | Some w' => detectWeapons_resume r w'
      | None => (w, [])
      end
  | DetectClicked scope => detectWeapons scope w
  | ImageLoaded result => (onload result w, [])
  | TabClicked t => (setActiveTab t w, [])
  end.

Fixpoint run (w : World) (evs : list Event) : World * list Effect :=
  match evs with
  | [] => (w, [])
  | ev :: rest =>
      let '(w1, e1) := step w ev in
      let '(w2, e2) := run w1 rest in
      (w2, e1 ++ e2)
  end.

Definition after (w : World) (evs : list Event) : World := fst (run w evs).

(** *** Vocabulary of the properties *)

(** A statistics request that fails: the request errors, the response is
    not ok, or its body cannot be decoded. *)
Definition statsFails (r : Fetch.Result Stats) : bool :=
  match r with
  | Fetch.Rejected => true
  | Fetch.Response false _ => true
  | Fetch.Response true None => true
  | Fetch.Response true (Some _) => false
  end.

(** Polling while every statistics request fails. *)
Definition failedPolling (ev : Event) : bool :=
  match ev with
  | PollTick => true
  | StatsSettles _ r => statsFails r
  | _ => false
  end.

Definition cardsNonNegative (s : State) : Prop :=
  match statCards s with
  | Some (t, k, p, a) => 0 <= t /\ 0 <= k /\ 0 <= p /\ 0 <= a
  | None => True
  end.

(** *** Concrete worlds used in the examples *)

Definition lastGood : Stats :=
  {| total_detections := Some 12; knife_detections := Some 5;
     pistol_detections := Some 7; alerts_sent := None |}.

(** The upload tab with no image chosen, showing the statistics of the last
    successful poll. *)
Definition noImageChosen : World :=
  {| state := {| activeTab := upload; image := None; processedImage := None;
                 detections := []; loading := false;
                 stats := Some lastGood; alertTriggered := false |};
     inflight := []; nextId := 0 |}.

(** *** What the upload tab renders

    The part of the JSX that depends on the state.  [image && ...] and
    [processedImage && ...] render nothing for [null] and for the empty
    string; the texts of a detection card are formatting of the detection and
    are not spelled out. *)

Record UploadView := {
  detectButton : option (bool * string);     (* disabled, label *)
  alertBanner : bool;
  originalImage : option string;
  processedPanel : option string;
  detectionCards : list Detection;           (* empty: no section *)
  statsSection : option (Z * Z * Z * Z)
}.

Inductive View :=
| UploadTab (v : UploadView)
| WebcamTab.

Definition render (s : State) : View :=
  match activeTab s with
  | upload =>
      UploadTab
        {| detectButton :=
             if noImage (image s) then None
             else Some (loading s,
                        if loading s then "🔍 Detecting..."
                        else "🔍 Detect Weapons");
           alertBanner := alertTriggered s;
           originalImage := if noImage (image s) then None else image s;
           processedPanel :=
             if noImage (image s) then None
             else if noImage (processedImage s) then None
                  else processedImage s;
           detectionCards := detections s;
           statsSection := statCards s |}
  | webcam => WebcamTab
  end.

(** *** The component driven through what it renders *)

Inductive UiEvent :=
| UiPoll
| UiStatsSettles (id : nat) (r : Fetch.Result Stats)
| UiDetectSettles (id : nat) (r : Fetch.Result DetectData)
| UiDetectClick
| UiImageLoaded (result : string)
| UiTabClick (t : Tab).

Definition uiStep (w : World) (e : UiEvent) : World * list Effect :=
  match e with
  | UiPoll => step w PollTick
  | UiStatsSettles id r => step w (StatsSettles id r)
  | UiDetectSettles id r => step w (DetectSettles id r)
  | UiDetectClick =>
      match render (state w) with
      | UploadTab v =>
          match detectButton v with
          | Some (false, _) => step w (DetectClicked (state w))
          | _ => (w, [])
          end
      | WebcamTab => (w, [])
      end
  | UiImageLoaded result => step w (ImageLoaded result)
  | UiTabClick t => step w (TabClicked t)
  end.

Fixpoint uiRun (w : World) (evs : list UiEvent) : World * list Effect :=
  match evs with
  | [] => (w, [])
  | e :: rest =>
      let '(w1, e1) := uiStep w e in
      let '(w2, e2) := uiRun w1 rest in
      (w2, e1 ++ e2)
  end.

(** The component at its first render. *)
Definition initial : World :=
  {| state := {| activeTab := upload; image := None; processedImage := None;
                 detections := []; loading := false; stats := None;
                 alertTriggered := false |};
     inflight := []; nextId := 0 |}.

(** A detection request that fails: the request errors, the response is not
    ok, or its body cannot be decoded. *)
Definition detectFails (r : Fetch.Result DetectData) : bool :=
  match r with
  | Fetch.Rejected => true
  | Fetch.Response false _ => true
  | Fetch.Response true None => true
  | Fetch.Response true (Some _) => false
  end.

Definition isDetect (q : Request) : bool :=
  match req_resumes q with AwaitDetect => true | AwaitStats => false end.

(** The number of [/detect-image] requests that have not settled. *)
Definition detectsInFlight (w : World) : nat :=
  List.length (filter isDetect (inflight w)).

Definition fetched (effs : list Effect) : list Request :=
  flat_map (fun e => match e with Fetched q => [q] | _ => [] end) effs.

Definition errorsLogged (effs : list Effect) : list string :=
  flat_map (fun e => match e with ConsoleError s => [s] | _ => [] end) effs.

(** Events other than a successful statistics response. *)
Definition noGoodStats (ev : Event) : bool :=
  match ev with
  | StatsSettles _ r => statsFails r
  | _ => true
  end.

(** *** More concrete worlds *)

Definition pictureA : string := "data:image/png;base64,AAAA".
Definition pictureB : string := "data:image/png;base64,BBBB".

(** Picture A has been chosen and its detection requested. *)
Definition detecting : World :=
  fst (uiRun initial [UiImageLoaded pictureA; UiDetectClick]).

(** A response for picture A: one knife, alert raised. *)
Definition knifeInA : DetectData :=
  {| processed_image := Some "data:image/jpeg;base64,CCCC";
     data_detections :=
       Some [{| class := "knife"; confidence := 4 # 5;
                x := 10; y := 20; width := 30; height := 40 |}];
     alert_triggered := Some true |}.

End App.

(** ** Properties of WebcamDetection *)

Module WebcamFacts.
Import Webcam.

(** *** What one call of [sendFrame] does *)

Lemma sendFrame_not_streaming (scope : State) (w : World) :
  isStreaming scope = false -> sendFrame scope w = Returned (w, []).
Proof. intros H. unfold sendFrame. now rewrite H. Qed.

(** *** What stopping and settling leave alone *)

Lemma stopWebcam_pending (scope : State) (w : World) :
  timers (stopWebcam scope w) = timers w /\
  inflight (stopWebcam scope w) = inflight w /\
  now (stopWebcam scope w) = now w /\
  nextId (stopWebcam scope w) = nextId w.
Proof.
  unfold stopWebcam.
  destruct (stream scope); cbn;
    destruct (videoRef w); cbn;
    destruct (canvasRef w); cbn; repeat split.
Qed.

Lemma stopWebcam_state (scope : State) (w : World) :
  isStreaming (state (stopWebcam scope w)) = false /\
  detections (state (stopWebcam scope w)) = [] /\
  (stream scope <> None -> stream (state (stopWebcam scope w)) = None).
Proof.
  unfold stopWebcam.
  destruct (stream scope); cbn;
    destruct (videoRef w); cbn;
    destruct (canvasRef w); cbn; repeat split; auto; congruence.
Qed.

Lemma onSettled_rejected (r : Fetch.Result Data) (w : World) :
  Fetch.rejects r = true ->
  onSettled r w = (w, [ConsoleError "Detection error:"]).
Proof.
  destruct r as [|ok [d|]]; cbn; intros H; try reflexivity; discriminate.
Qed.

Lemma onSettled_batch (ok : bool) (ds : list Detection) (w : World) :
  onSettled (Fetch.Response ok (Some {| data_detections := Some ds |})) w =
  (drawDetections ds (setDetections ds w), []).
Proof. reflexivity. Qed.

Lemma drawDetections_state (ds : list Detection) (w : World) :
  state (drawDetections ds w) = state w /\
  timers (drawDetections ds w) = timers w /\
  inflight (drawDetections ds w) = inflight w /\
  videoRef (drawDetections ds w) = videoRef w.
Proof.
  unfold drawDetections.
  destruct (canvasRef w) eqn:Ec, (videoRef w) eqn:Ev; cbn;
    repeat split; auto.
Qed.

(** *** Runs *)

Lemma after_cons (w : World) (ev : Event) (evs : list Event) :
  after w (ev :: evs) = after (fst (step w ev)) evs.
Proof.
  unfold after. cbn. destruct (step w ev) as [w1 e1]. cbn.
  destruct (run w1 evs) as [w2 e2]. reflexivity.
Qed.

Lemma after_nil (w : World) : after w [] = w.
Proof. reflexivity. Qed.

Lemma stopWebcam_refs (scope : State) (w : World) :
  (videoRef w = None <-> videoRef (stopWebcam scope w) = None) /\
  (canvasRef w = None <-> canvasRef (stopWebcam scope w) = None).
Proof.
  destruct w as [st [v|] [c|] ls t tm fl n]; unfold stopWebcam;
    destruct (stream scope); cbn; repeat split; intros; congruence.
Qed.

(** *** Stopping a stopped source *)

Lemma sendFrame_frame (scope : State) (w w' : World) (e : list Effect) :
  sendFrame scope w = Returned (w', e) ->
  state w' = state w /\ videoRef w' = videoRef w /\
  canvasRef w' = canvasRef w.
Proof.
  unfold sendFrame.
  destruct (isStreaming scope); cbn.
  - destruct (videoRef w) eqn:Ev; [|discriminate].
    intros H. injection H as <- _. cbn. auto.
  - intros H. injection H as <- _. auto.
Qed.

Lemma overlayAgrees_same (w w' : World) :
  detections (state w') = detections (state w) ->
  (videoRef w <> None -> videoRef w' <> None) ->
  canvasRef w' = canvasRef w ->
  overlayAgrees w -> overlayAgrees w'.
Proof.
  intros Hd Hv Hc [Hvid Hov]. split; [auto|].
  rewrite Hd, Hc. exact Hov.
Qed.

Lemma overlayAgrees_batch (ds : list Detection) (w : World) :
  videoRef w <> None ->
  overlayAgrees (drawDetections ds (setDetections ds w)).
Proof.
  intros Hv. unfold drawDetections. cbn.
  destruct (canvasRef w) as [c|] eqn:Ec;
    destruct (videoRef w) as [v|] eqn:Ev; try congruence.
  - split; cbn; [now rewrite Ev|].
    intros -> c' H. injection H as <-. reflexivity.
  - split; cbn; [now rewrite Ev|].
    intros _ c' H. rewrite Ec in H. discriminate.
Qed.

Lemma overlayAgrees_stop (scope : State) (w : World) :
  videoRef w <> None -> overlayAgrees (stopWebcam scope w).
Proof.
  intros Hv. split.
  - intros H. now apply (proj1 (stopWebcam_refs scope w)) in H.
  - intros _ c. destruct w as [st [v|] [k|] ls t tm fl n];
      unfold stopWebcam; destruct (stream scope); cbn;
      intros H; try discriminate; injection H as <-; reflexivity.
Qed.

Lemma overlayAgrees_step (w : World) (ev : Event) :
  overlayAgrees w -> overlayAgrees (fst (step w ev)).
Proof.
  intros Inv. pose proof (proj1 Inv) as Hv.
  destruct ev as [ms|k|id r|scope granted|scope|m|]; cbn [step].
  - exact Inv.
  - destruct (nth_error (timers w) k) as [t|]; [|exact Inv].
    destruct (due t <=? now w); [|exact Inv].
    destruct (sendFrame (timer_scope t)
                (with_timers (remove_nth k (timers w)) w))
      as [[w' e]|what] eqn:E; [|exact Inv].
    apply sendFrame_frame in E as (Hs & Hvid & Hc). cbn in *.
    apply (overlayAgrees_same w); auto; congruence.
  - destruct (outstanding id w); [|exact Inv].
    destruct r as [|ok [[[ds|]]|]]; cbn [onSettled data_detections fst];
      try exact Inv.
    apply overlayAgrees_batch. exact Hv.
  - unfold startWebcam. destruct granted as [m|]; cbn [fst].
    + match goal with
      | |- context [startDetection scope ?x] =>
          remember x as w2 eqn:Hw2;
          assert (H2 : detections (state w2) = detections (state w) /\
                       videoRef w2 <> None /\ canvasRef w2 = canvasRef w)
      end.
      { subst w2. destruct (videoRef w) eqn:Ev; [|congruence].
        cbn. rewrite Ev. cbn. repeat split. discriminate. }
      destruct H2 as (Hd2 & Hv2 & Hc2).
      unfold startDetection.
      destruct (sendFrame scope w2) as [[w3 e]|what] eqn:E; cbn [fst].
      * apply sendFrame_frame in E as (Hs & Hvid & Hc).
        apply (overlayAgrees_same w); cbn; auto; congruence.
      * apply (overlayAgrees_same w); cbn; auto.
    + apply (overlayAgrees_same w); cbn; auto.
  - apply overlayAgrees_stop. exact Hv.
  - unfold onmessage. destruct (String.eqb (msg_type m) "detection");
      [|exact Inv].
    apply overlayAgrees_batch. exact Hv.
  - apply (overlayAgrees_same w); cbn; auto.
Qed.

Lemma overlayAgrees_after (evs : list Event) :
  forall w, overlayAgrees w -> overlayAgrees (after w evs).
Proof.
  induction evs as [|ev evs IH]; intros w Inv; [exact Inv|].
  rewrite after_cons. apply IH, overlayAgrees_step, Inv.
Qed.

Lemma overlayAgrees_mounted (vw vh cw ch : Z) :
  overlayAgrees (mounted vw vh cw ch).
Proof.
  split; cbn; [discriminate|].
  intros _ c H. injection H as <-. reflexivity.
Qed.

Lemma stopWebcam_when_stopped (scope : State) (w : World) :
  overlayAgrees w ->
  isStreaming (state w) = false ->
  stream (state w) = None ->
  detections (state w) = [] ->
  observable (stopWebcam scope w) = observable w.
Proof.
  intros [_ Hov] Hs Hst Hd. specialize (Hov Hd).
  destruct w as [[s d l e m] [v|] [c|] ls t tm fl n]; cbn in *; subst;
    unfold stopWebcam, observable; destruct (stream scope); cbn;
    try reflexivity;
    specialize (Hov c eq_refl); destruct c as [cw ch p]; cbn in *; subst;
    reflexivity.
Qed.

(** Stopping twice in a row is the same as stopping once, for the closure
    of the render that follows the first stop (it sees no stream). *)
Lemma stopWebcam_twice (scope scope' : State) (w : World) :
  stream scope' = None ->
  stopWebcam scope' (stopWebcam scope w) = stopWebcam scope w.
Proof.
  intros H.
  destruct w as [[s d l e m] [v|] [c|] ls t tm fl n];
    unfold stopWebcam; rewrite H; destruct (stream scope); reflexivity.
Qed.

(** C5.  In every state the component can be in after it has been mounted
    (whatever has happened since: clicks, timers, completed or failed calls,
    WebSocket messages), if the source is not streaming (the streaming flag
    is off, the stream is null and the detections are empty), calling
    [stopWebcam] leaves the stream, the streaming flag, the detections list
    and the overlay canvas as they are.  [stopWebcam] cannot throw: each
    dereference in it is guarded. *)
Theorem stop_on_stopped_source_is_noop
    (vw vh cw ch : Z) (evs : list Event) (scope : State) :
  let w := after (mounted vw vh cw ch) evs in
  isStreaming (state w) = false ->
  stream (state w) = None ->
  detections (state w) = [] ->
  observable (stopWebcam scope w) = observable w.
Proof.
  intros w. apply stopWebcam_when_stopped.
  apply overlayAgrees_after, overlayAgrees_mounted.
Qed.

Lemma stop_on_stopped_source_is_noop_witness :
  let w := after (mounted 1280 720 300 150)
             [StartClicked streamingScope (Some camera);
              Elapse 100; TimerFires 0;
              completes (0%nat, [pistolAt 0]);
              StopClicked streamingScope;
              completes (1%nat, [])] in
  observable (stopWebcam idleScope w) = observable w.
Proof.
  intros w.
  apply (stop_on_stopped_source_is_noop 1280 720 300 150
           [StartClicked streamingScope (Some camera);
            Elapse 100; TimerFires 0;
            completes (0%nat, [pistolAt 0]);
            StopClicked streamingScope;
            completes (1%nat, [])] idleScope);
    reflexivity.
Defined.

(** *** Starting

    [startWebcam] calls [startDetection] before [setIsStreaming(true)], and
    the [sendFrame] it creates reads the [isStreaming] of the render in which
    the start button was clicked.  Started from a render that is not
    streaming, the first call of [sendFrame] returns at its guard: no frame
    is submitted and no timer is set. *)
Lemma startWebcam_from_idle_render
    (scope : State) (w : World) (m : MediaStream) :
  isStreaming scope = false ->
  let '(w', effs) := startWebcam scope (Some m) w in
  effs = [] /\ timers w' = timers w /\ inflight w' = inflight w /\
  isStreaming (state w') = true /\ stream (state w') = Some m.
Proof.
  intros H. unfold startWebcam, startDetection.
  rewrite (sendFrame_not_streaming scope _ H).
  destruct w as [st [v|] [c|] ls t tm fl n]; cbn; repeat split.
Qed.

End WebcamFacts.

(** ** Properties of App *)

Module AppFacts.
Import App.

Lemma after_step (w : World) (ev : Event) (evs : list Event) :
  after w (ev :: evs) = after (fst (step w ev)) evs.
Proof.
  unfold after. cbn. destruct (step w ev) as [w1 e1]. cbn.
  destruct (run w1 evs) as [w2 e2]. reflexivity.
Qed.

(** A failed statistics request never reaches [setStats]. *)
Lemma fetchStats_resume_failed (r : Fetch.Result Stats) (w : World) :
  statsFails r = true -> fst (fetchStats_resume r w) = w.
Proof.
  destruct r as [|[|] [d|]]; cbn; intros H; try reflexivity; discriminate.
Qed.

Lemma failedPolling_step (w : World) (ev : Event) :
  failedPolling ev = true -> state (fst (step w ev)) = state w.
Proof.
  destruct ev as [|id r|id r|scope|result|t]; cbn; intros H;
    try discriminate.
  - reflexivity.
  - unfold settle. destruct (existsb (resumes id AwaitStats) (inflight w));
      [|reflexivity].
    now rewrite (fetchStats_resume_failed r _ H).
Qed.

(** C7.  While statistics polls fail (the request errors, the response is
    not ok, or its body cannot be decoded), the [stats] state, and with it
    the four displayed counters, stay what the last successful poll made
    them; in particular counters that were non-negative stay so. *)
Theorem stats_frozen_while_polls_fail (evs : list Event) :
  forall w : World,
    forallb failedPolling evs = true ->
    stats (state (after w evs)) = stats (state w) /\
    statCards (state (after w evs)) = statCards (state w) /\
    (cardsNonNegative (state w) -> cardsNonNegative (state (after w evs))).
Proof.
  induction evs as [|ev evs IH]; intros w Hall.
  - repeat split. auto.
  - cbn in Hall. apply andb_true_iff in Hall as [Hev Hall].
    rewrite after_step.
    destruct (IH (fst (step w ev)) Hall) as (Hs & Hc & Hn).
    rewrite (failedPolling_step w ev Hev) in Hs, Hc, Hn.
    auto.
Qed.

Lemma stats_frozen_while_polls_fail_witness :
  let evs := [PollTick; StatsSettles 0 Fetch.Rejected;
              PollTick; StatsSettles 1 (Fetch.Response false None);
              PollTick; StatsSettles 2 (Fetch.Response true None)] in
  stats (state (after noImageChosen evs)) = Some lastGood /\
  statCards (state (after noImageChosen evs)) = Some (12, 5, 7, 0) /\
  cardsNonNegative (state (after noImageChosen evs)).
Proof.
  intros evs.
  destruct (stats_frozen_while_polls_fail evs noImageChosen eq_refl)
    as (Hs & Hc & Hn).
  split; [exact Hs | split; [exact Hc | apply Hn; cbn; lia]].
Defined.

(** C10.  With no image selected ([image] is [null] in the render whose
    button is clicked), [detectWeapons] returns at once: no request is sent
    and the component state (loading flag, processed image, detections,
    alert flag, statistics) is untouched. *)
Theorem detectWeapons_without_image (scope : State) (w : World) :
  image scope = None ->
  step w (DetectClicked scope) = (w, []).
Proof.
  intros H. cbn. unfold detectWeapons. now rewrite H.
Qed.

Lemma detectWeapons_without_image_witness :
  step noImageChosen (DetectClicked (state noImageChosen)) =
  (noImageChosen, []).
Proof.
  exact (detectWeapons_without_image (state noImageChosen) noImageChosen
           eq_refl).
Defined.

End AppFacts.

(** ** Further properties of WebcamDetection *)

Module WebcamMore.
Import Webcam.

Lemma fetchedIds_app (e1 e2 : list Effect) :
  fetchedIds (e1 ++ e2) = fetchedIds e1 ++ fetchedIds e2.
Proof. unfold fetchedIds. apply flat_map_app. Qed.

Lemma remove_only (m : MediaStream) : List.remove Nat.eq_dec m [m] = [].
Proof. cbn. destruct (Nat.eq_dec m m); [reflexivity|congruence]. Qed.

(** *** The component driven through its buttons *)

(** One UI-driven step keeps the loop idle and the camera accounted for. *)
Lemma uiStep_idle (w : World) (e : UiEvent) :
  timers w = [] -> inflight w = [] -> cameraHeld w ->
  timers (fst (uiStep w e)) = [] /\
  inflight (fst (uiStep w e)) = [] /\
  cameraHeld (fst (uiStep w e)) /\
  fetchedIds (snd (uiStep w e)) = [].
Proof.
  destruct w as [[sg ds ld er sm] v c ls t tm fl n].
  unfold cameraHeld. cbn. intros -> -> [Hl Hs]. subst ls sg.
  destruct e as [ms|k|id r|granted| |m|]; cbn -[List.remove].
  - auto.
  - destruct k; cbn; auto.
  - auto.
  - destruct sm as [m0|]; cbn; [auto|].
    destruct ld; cbn; [auto|].
    destruct granted as [m|]; cbn.
    + destruct v; cbn; auto.
    + auto.
  - destruct sm as [m0|]; cbn -[List.remove]; [|auto].
    unfold stopWebcam. cbn -[List.remove]. rewrite (remove_only m0).
    destruct v, c; cbn; auto.
  - unfold onmessage. destruct (String.eqb (msg_type m) "detection");
      [|cbn; auto].
    unfold drawDetections. cbn. destruct c, v; cbn; auto.
  - auto.
Qed.

Lemma uiRun_idle (evs : list UiEvent) :
  forall w : World,
    timers w = [] -> inflight w = [] -> cameraHeld w ->
    timers (fst (uiRun w evs)) = [] /\
    inflight (fst (uiRun w evs)) = [] /\
    cameraHeld (fst (uiRun w evs)) /\
    fetchedIds (snd (uiRun w evs)) = [].
Proof.
  induction evs as [|e evs IH]; intros w Ht Hi Hc; [cbn; auto|].
  destruct (uiStep_idle w e Ht Hi Hc) as (Ht1 & Hi1 & Hc1 & Hf1).
  cbn [uiRun]. destruct (uiStep w e) as [w1 e1]. cbn [fst snd] in *.
  destruct (IH w1 Ht1 Hi1 Hc1) as (Ht2 & Hi2 & Hc2 & Hf2).
  destruct (uiRun w1 evs) as [w2 e2]. cbn [fst snd] in *.
  rewrite fetchedIds_app, Hf1, Hf2. auto.
Qed.

Lemma mounted_idle (vw vh cw ch : Z) :
  timers (mounted vw vh cw ch) = [] /\
  inflight (mounted vw vh cw ch) = [] /\
  cameraHeld (mounted vw vh cw ch).
Proof. repeat split. Qed.

(** X1.  Driven through its buttons, the component never submits a frame:
    whatever is clicked and whatever arrives after the component is mounted,
    no [fetch] to [/detect/video] is made, no request is outstanding and no
    [sendFrame] timer is pending.  ([startDetection] is called before
    [setIsStreaming(true)] with the closure of a render that is not
    streaming, so [sendFrame] returns at its first guard.) *)
Theorem ui_never_submits_a_frame
    (vw vh cw ch : Z) (evs : list UiEvent) :
  fetchedIds (snd (uiRun (mounted vw vh cw ch) evs)) = [] /\
  inflight (fst (uiRun (mounted vw vh cw ch) evs)) = [] /\
  timers (fst (uiRun (mounted vw vh cw ch) evs)) = [].
Proof.
  destruct (mounted_idle vw vh cw ch) as (Ht & Hi & Hc).
  destruct (uiRun_idle evs _ Ht Hi Hc) as (Ht' & Hi' & _ & Hf).
  auto.
Qed.

(** X2.  Driven through its buttons, the component holds the camera
    exactly while it is streaming: the live tracks are those of the stream
    in the state, and once Stop has been clicked no track is live. *)
Theorem ui_camera_held_while_streaming
    (vw vh cw ch : Z) (evs : list UiEvent) :
  cameraHeld (fst (uiRun (mounted vw vh cw ch) evs)).
Proof.
  destruct (mounted_idle vw vh cw ch) as (Ht & Hi & Hc).
  now destruct (uiRun_idle evs _ Ht Hi Hc) as (_ & _ & Hc' & _).
Qed.

Lemma drawDetections_frame (ds : list Detection) (w : World) :
  videoRef (drawDetections ds w) = videoRef w.
Proof.
  unfold drawDetections.
  destruct (canvasRef w) eqn:Ec, (videoRef w) eqn:Ev; cbn; auto.
Qed.

(** *** The overlay *)

Lemma overlayShows_same (w w' : World) :
  detections (state w') = detections (state w) ->
  canvasRef w' = canvasRef w ->
  overlayShows w -> overlayShows w'.
Proof. unfold overlayShows. now intros -> ->. Qed.

Lemma overlayShows_batch (ds : list Detection) (w : World) :
  videoRef w <> None -> canvasRef w <> None ->
  overlayShows (drawDetections ds (setDetections ds w)).
Proof.
  intros Hv Hc. unfold overlayShows, drawDetections. cbn.
  destruct (canvasRef w) eqn:Ec; [|congruence].
  destruct (videoRef w) eqn:Ev; [|congruence].
  reflexivity.
Qed.

Lemma sendFrame_keeps (scope : State) (w w' : World) (e : list Effect) :
  sendFrame scope w = Returned (w', e) ->
  state w' = state w /\ videoRef w' = videoRef w /\
  canvasRef w' = canvasRef w.
Proof.
  unfold sendFrame. destruct (isStreaming scope); cbn.
  - destruct (videoRef w) eqn:Ev; [|discriminate].
    intros H. injection H as <- _. cbn. auto.
  - intros H. injection H as <- _. auto.
Qed.

(** One step, by any closure, keeps both elements attached and the overlay
    in agreement with the detections. *)
Lemma overlayShows_step (w : World) (ev : Event) :
  videoRef w <> None -> overlayShows w ->
  videoRef (fst (step w ev)) <> None /\ overlayShows (fst (step w ev)).
Proof.
  intros Hv Ho.
  assert (Hc : canvasRef w <> None).
  { unfold overlayShows in Ho. destruct (canvasRef w); [discriminate|].
    discriminate Ho. }
  destruct ev as [ms|k|id r|scope granted|scope|m|]; cbn [step].
  - split; [exact Hv|exact Ho].
  - destruct (nth_error (timers w) k) as [t|]; [|auto].
    destruct (due t <=? now w); [|auto].
    destruct (sendFrame (timer_scope t)
                (with_timers (remove_nth k (timers w)) w))
      as [[w' e]|what] eqn:E; cbn [fst]; [|auto].
    apply sendFrame_keeps in E as (Hs & Hvid & Hcv). cbn in *.
    split; [congruence|].
    apply (overlayShows_same w); [congruence|exact Hcv|exact Ho].
  - destruct (outstanding id w); [|auto].
    destruct r as [|ok [[[ds|]]|]]; cbn [onSettled data_detections fst];
      auto.
    split.
    + pose proof (drawDetections_frame ds
                    (setDetections ds
                       (with_inflight
                          (filter (fun q => negb (isRequest id q))
                             (inflight w)) w))) as Hd.
      cbn in Hd. congruence.
    + apply overlayShows_batch; cbn; assumption.
  - unfold startWebcam. destruct granted as [m|]; cbn [fst].
    + destruct w as [st [v|] [c|] ls t tm fl n]; cbn in Hv, Hc;
        try congruence.
      unfold startDetection, sendFrame, overlayShows in *.
      destruct (isStreaming scope); cbn in *; split; try discriminate;
        exact Ho.
    + split; [exact Hv|exact Ho].
  - destruct w as [st [v|] [c|] ls t tm fl n]; cbn in Hv, Hc;
      try congruence.
    unfold stopWebcam. destruct (stream scope); cbn;
      split; try discriminate; reflexivity.
  - unfold onmessage. destruct (String.eqb (msg_type m) "detection");
      cbn [fst]; [|auto].
    split.
    + pose proof (drawDetections_frame (msg_detections m)
                    (setDetections (msg_detections m) w)) as Hd.
      cbn in Hd. congruence.
    + apply overlayShows_batch; assumption.
  - split; [exact Hv|exact Ho].
Qed.

Lemma overlayShows_after (evs : list Event) :
  forall w : World,
    videoRef w <> None -> overlayShows w -> overlayShows (after w evs).
Proof.
  induction evs as [|ev evs IH]; intros w Hv Ho; [exact Ho|].
  destruct (overlayShows_step w ev Hv Ho) as [Hv1 Ho1].
  unfold after in *. cbn [run]. destruct (step w ev) as [w1 e1].
  cbn [fst] in *. specialize (IH w1 Hv1 Ho1).
  destruct (run w1 evs) as [w2 e2]. exact IH.
Qed.

(** X3.  Whatever has happened since the component was mounted (calls of
    any handler from any render, timers, completed or failed requests,
    WebSocket traffic), the overlay canvas shows the boxes and labels of the
    detections in the state and nothing else: the overlay and the detections
    panel never disagree. *)
Theorem overlay_always_shows_the_detections
    (vw vh cw ch : Z) (evs : list Event) :
  overlayShows (after (mounted vw vh cw ch) evs).
Proof.
  apply overlayShows_after; [discriminate|reflexivity].
Qed.

(** X4.  [drawDetections] replaces what was drawn before: drawing a batch
    over any earlier drawing leaves exactly what drawing that batch alone
    would leave.  Boxes never accumulate from one batch to the next. *)
Theorem drawDetections_replaces (ds ds' : list Detection) (w : World) :
  drawDetections ds (drawDetections ds' w) = drawDetections ds w.
Proof.
  destruct w as [st [v|] [c|] ls t tm fl n]; reflexivity.
Qed.

(** *** What is on screen *)

(** X6.  After [stopWebcam] the component shows its idle face whatever it
    showed before: the Start button, the placeholder instead of the video,
    "No weapons detected", a count of 0 and the status Inactive.  An error
    message that was on screen stays there: stopping does not clear it. *)
Theorem view_after_stop (scope : State) (w : World) :
  render (state (stopWebcam scope w)) =
  {| control :=
       StartButton (isLoading (state w))
         (if isLoading (state w) then "Starting..." else "Start Detection");
     errorMessage := shownError (error (state w));
     videoShown := false;
     placeholderShown := true;
     panel := [];
     currentDetections := 0;
     streamStatus := "Inactive" |}.
Proof.
  destruct w as [st [v|] [c|] ls t tm fl n]; unfold stopWebcam;
    destruct (stream scope); reflexivity.
Qed.


End WebcamMore.

(** ** The frame loop on the runs of the mounted component

    The properties of this part hold for every run the component can make
    once it is mounted: any sequence of clicks on the buttons it renders,
    timers, settling requests and WebSocket traffic. *)

Module WebcamRuns.
Import Webcam.











(** C8, where the code departs from it.  The component is mounted and
    Start is clicked with the camera granted.  [startWebcam] runs the first
    iteration of the loop before it sets the streaming flag, and that
    iteration reads the [isStreaming] of the render in which Start was
    clicked, which is [false]: it returns at its guard.  The source is then
    streaming, with no frame submitted and no successor scheduled, and it
    stays so: 200 ms and two timer slots later still nothing has been sent. *)
Theorem streaming_source_runs_no_iteration :
  state (mounted 1280 720 300 150) = idleScope /\
  sendFrame idleScope streaming0 = Returned (streaming0, []) /\
  uiRun (mounted 1280 720 300 150) [UiStartClick (Some camera)] =
    (streaming0, []) /\
  isStreaming (state streaming0) = true /\
  streamStatus (render (state streaming0)) = "Active" /\
  timers streaming0 = [] /\
  inflight streaming0 = [] /\
  uiRun streaming0
    [UiElapse 100; UiTimerFires 0; UiElapse 100; UiTimerFires 0] =
    (with_now 200 streaming0, []).
Proof. repeat split. Qed.



End WebcamRuns.

(** ** Further properties of App *)

Module AppMore.
Import App.

(** *** Counting the detection requests in flight *)

Lemma filter_isDetect_le (P : Request -> bool) (l : list Request) :
  (List.length (filter isDetect (filter P l)) <=
   List.length (filter isDetect l))%nat.
Proof.
  induction l as [|q l IH]; cbn; [lia|].
  destruct (P q), (isDetect q) eqn:E; cbn; rewrite ?E; cbn; lia.
Qed.

Lemma settled_detect_leaves (id : nat) (l : list Request) :
  existsb (resumes id AwaitDetect) l = true ->
  (List.length
     (filter isDetect (filter (fun q => negb (resumes id AwaitDetect q)) l)) <
   List.length (filter isDetect l))%nat.
Proof.
  induction l as [|q l IH]; cbn; [discriminate|].
  destruct (resumes id AwaitDetect q) eqn:R; cbn.
  - intros _.
    assert (D : isDetect q = true).
    { unfold resumes in R. apply andb_true_iff in R as [_ R].
      unfold isDetect. destruct (req_resumes q); [discriminate|reflexivity]. }
    rewrite D. cbn.
    pose proof (filter_isDetect_le
                  (fun q => negb (resumes id AwaitDetect q)) l).
    lia.
  - intros H. specialize (IH H).
    destruct (isDetect q); cbn; lia.
Qed.

Lemma settled_stats_keeps_detects (id : nat) (l : list Request) :
  filter isDetect (filter (fun q => negb (resumes id AwaitStats q)) l) =
  filter isDetect l.
Proof.
  induction l as [|q l IH]; cbn; [reflexivity|].
  destruct (resumes id AwaitStats q) eqn:R; cbn.
  - assert (D : isDetect q = false).
    { unfold resumes in R. apply andb_true_iff in R as [_ R].
      unfold isDetect. destruct (req_resumes q); [reflexivity|discriminate]. }
    now rewrite D.
  - destruct (isDetect q); cbn; now rewrite IH.
Qed.

Lemma filter_isDetect_snoc (l : list Request) (q : Request) :
  filter isDetect (l ++ [q]) =
  filter isDetect l ++ (if isDetect q then [q] else []).
Proof. now rewrite filter_app. Qed.

(** One UI-driven step keeps the loading flag and the detection requests in
    flight in step. *)
Lemma uiStep_loading (w : World) (e : UiEvent) :
  detectsInFlight w = (if loading (state w) then 1 else 0)%nat ->
  detectsInFlight (fst (uiStep w e)) =
  (if loading (state (fst (uiStep w e))) then 1 else 0)%nat.
Proof.
  unfold detectsInFlight.
  destruct w as [[tb im pi ds ld st al] fl n]. cbn. intros Inv.
  destruct e as [|id r|id r| |result|t]; cbn.
  - rewrite filter_isDetect_snoc. cbn. now rewrite app_nil_r.
  - unfold settle. cbn.
    destruct (existsb (resumes id AwaitStats) fl); cbn; [|exact Inv].
    destruct r as [|[|] [d|]]; cbn;
      now rewrite settled_stats_keeps_detects.
  - unfold settle. cbn.
    destruct (existsb (resumes id AwaitDetect) fl) eqn:E; cbn; [|exact Inv].
    pose proof (settled_detect_leaves id fl E) as Hlt.
    assert (Hz : List.length
                   (filter isDetect
                      (filter (fun q => negb (resumes id AwaitDetect q)) fl))
                 = 0%nat) by (destruct ld; lia).
    destruct r as [|[|] [d|]]; cbn; try exact Hz.
    rewrite filter_isDetect_snoc. cbn. rewrite app_nil_r. exact Hz.
  - destruct tb; cbn; [|exact Inv].
    destruct (noImage im) eqn:Ni; cbn; [exact Inv|].
    destruct ld; cbn; [exact Inv|].
    unfold detectWeapons. cbn. rewrite Ni. cbn.
    rewrite filter_isDetect_snoc. cbn. rewrite length_app. cbn. lia.
  - exact Inv.
  - exact Inv.
Qed.

(** X9.  Driven through its buttons, the upload tab never has two
    detections in flight: at every moment the number of [/detect-image]
    requests that have not settled is 1 if the loading flag is on and 0 if
    it is off.  (The Detect button is disabled while loading, and every way
    a request can end turns loading off.) *)
Theorem ui_one_detection_at_a_time (evs : list UiEvent) :
  detectsInFlight (fst (uiRun initial evs)) =
  (if loading (state (fst (uiRun initial evs))) then 1 else 0)%nat.
Proof.
  assert (H : forall w,
             detectsInFlight w = (if loading (state w) then 1 else 0)%nat ->
             detectsInFlight (fst (uiRun w evs)) =
             (if loading (state (fst (uiRun w evs))) then 1 else 0)%nat).
  { induction evs as [|e evs IH]; intros w Inv; [exact Inv|].
    cbn [uiRun]. pose proof (uiStep_loading w e Inv) as Inv1.
    destruct (uiStep w e) as [w1 e1]. cbn [fst] in Inv1.
    specialize (IH w1 Inv1). destruct (uiRun w1 evs) as [w2 e2].
    exact IH. }
  apply H. reflexivity.
Qed.

(** *** How a detection ends *)

(** X10.  A detection that fails (the request errors, the response is not
    ok, or its body cannot be decoded) writes one line to the console and
    turns loading off, and that is all: the image, the processed image, the
    detections, the alert flag and the statistics of the previous detection
    stay on display, and no statistics refresh is requested. *)
Theorem failed_detection_keeps_previous_results
    (w : World) (id : nat) (r : Fetch.Result DetectData) :
  detectFails r = true ->
  existsb (resumes id AwaitDetect) (inflight w) = true ->
  let w' := fst (step w (DetectSettles id r)) in
  let effs := snd (step w (DetectSettles id r)) in
  loading (state w') = false /\
  image (state w') = image (state w) /\
  processedImage (state w') = processedImage (state w) /\
  detections (state w') = detections (state w) /\
  alertTriggered (state w') = alertTriggered (state w) /\
  stats (state w') = stats (state w) /\
  fetched effs = [] /\
  List.length (errorsLogged effs) = 1%nat.
Proof.
  intros Hf Hp. cbn. unfold settle. rewrite Hp.
  destruct r as [|[|] [d|]]; try discriminate; cbn; repeat split.
Qed.

Lemma failed_detection_keeps_previous_results_witness :
  let r : Fetch.Result DetectData := Fetch.Response false None in
  let w' := fst (step detecting (DetectSettles 0 r)) in
  let effs := snd (step detecting (DetectSettles 0 r)) in
  loading (state w') = false /\
  image (state w') = image (state detecting) /\
  processedImage (state w') = processedImage (state detecting) /\
  detections (state w') = detections (state detecting) /\
  alertTriggered (state w') = alertTriggered (state detecting) /\
  stats (state w') = stats (state detecting) /\
  fetched effs = [] /\
  List.length (errorsLogged effs) = 1%nat.
Proof.
  exact (failed_detection_keeps_previous_results detecting 0
           (Fetch.Response false None) eq_refl eq_refl).
Defined.

(** X11.  A detection that succeeds shows what the response carries, with
    an absent [detections] read as no detection and an absent
    [alert_triggered] as no alert, turns loading off, logs nothing, and
    requests exactly one refresh of the statistics; the statistics
    themselves are not changed by the detection response. *)
Theorem successful_detection_shows_and_refreshes
    (w : World) (id : nat) (data : DetectData) :
  existsb (resumes id AwaitDetect) (inflight w) = true ->
  let w' := fst (step w (DetectSettles id (Fetch.Response true (Some data)))) in
  let effs :=
    snd (step w (DetectSettles id (Fetch.Response true (Some data)))) in
  processedImage (state w') = processed_image data /\
  detections (state w') =
    match data_detections data with Some ds => ds | None => [] end /\
  alertTriggered (state w') =
    match alert_triggered data with Some b => b | None => false end /\
  loading (state w') = false /\
  image (state w') = image (state w) /\
  stats (state w') = stats (state w) /\
  fetched effs = [{| req_id := nextId w; req_url := statsUrl;
                     req_body := None; req_resumes := AwaitStats |}] /\
  errorsLogged effs = [].
Proof.
  intros Hp. cbn. unfold settle. rewrite Hp. cbn. repeat split.
Qed.

Lemma successful_detection_shows_and_refreshes_witness :
  let w' :=
    fst (step detecting (DetectSettles 0 (Fetch.Response true (Some knifeInA))))
  in
  let effs :=
    snd (step detecting (DetectSettles 0 (Fetch.Response true (Some knifeInA))))
  in
  processedImage (state w') = processed_image knifeInA /\
  detections (state w') =
    match data_detections knifeInA with Some ds => ds | None => [] end /\
  alertTriggered (state w') =
    match alert_triggered knifeInA with Some b => b | None => false end /\
  loading (state w') = false /\
  image (state w') = image (state detecting) /\
  stats (state w') = stats (state detecting) /\
  fetched effs = [{| req_id := nextId detecting; req_url := statsUrl;
                     req_body := None; req_resumes := AwaitStats |}] /\
  errorsLogged effs = [].
Proof.
  exact (successful_detection_shows_and_refreshes detecting 0 knifeInA
           eq_refl).
Defined.

(** *** Choosing another image *)

(** X12.  Choosing an image clears what the previous detection left on
    screen: on the upload tab the new image is shown alone, with no
    processed image, no detection cards and no alert banner.  The
    statistics section and the state of the Detect button (disabled while a
    request is in flight) are not affected. *)
Theorem new_image_clears_previous_results (w : World) (result : string) :
  result <> "" ->
  activeTab (state w) = upload ->
  render (state (fst (step w (ImageLoaded result)))) =
  UploadTab
    {| detectButton :=
         Some (loading (state w),
               if loading (state w) then "🔍 Detecting..."
               else "🔍 Detect Weapons");
       alertBanner := false;
       originalImage := Some result;
       processedPanel := None;
       detectionCards := [];
       statsSection := statCards (state w) |}.
Proof.
  intros Hne Htab. destruct w as [[tb im pi ds ld st al] fl n].
  cbn in *. subst tb. unfold render. cbn.
  destruct (String.eqb_spec result "") as [E|E]; [contradiction|].
  reflexivity.
Qed.

Lemma new_image_clears_previous_results_witness :
  let shown :=
    fst (step detecting (DetectSettles 0 (Fetch.Response true (Some knifeInA))))
  in
  render (state (fst (step shown (ImageLoaded pictureB)))) =
  UploadTab
    {| detectButton := Some (false, "🔍 Detect Weapons");
       alertBanner := false;
       originalImage := Some pictureB;
       processedPanel := None;
       detectionCards := [];
       statsSection := None |}.
Proof.
  intros shown.
  apply (new_image_clears_previous_results shown pictureB).
  - discriminate.
  - reflexivity.
Defined.

(** X13.  A detection response is applied to whatever image is selected
    when it arrives.  If another image is chosen while a detection is in
    flight, the response for the earlier image is shown beside the new one:
    its processed image, detections and alert are set, and the selected
    image stays the new one. *)
Theorem response_for_earlier_image_is_shown
    (w : World) (id : nat) (data : DetectData) (result : string) :
  existsb (resumes id AwaitDetect) (inflight w) = true ->
  let chosen := fst (step w (ImageLoaded result)) in
  let w' :=
    fst (step chosen (DetectSettles id (Fetch.Response true (Some data)))) in
  image (state w') = Some result /\
  processedImage (state w') = processed_image data /\
  detections (state w') =
    match data_detections data with Some ds => ds | None => [] end /\
  alertTriggered (state w') =
    match alert_triggered data with Some b => b | None => false end.
Proof.
  intros Hp. cbn. unfold settle. cbn. rewrite Hp. cbn. repeat split.
Qed.

Lemma response_for_earlier_image_is_shown_witness :
  let chosen := fst (step detecting (ImageLoaded pictureB)) in
  let w' :=
    fst (step chosen
           (DetectSettles 0 (Fetch.Response true (Some knifeInA)))) in
  map req_body (inflight detecting) = [Some pictureA] /\
  image (state w') = Some pictureB /\
  processedImage (state w') = processed_image knifeInA /\
  detections (state w') =
    match data_detections knifeInA with Some ds => ds | None => [] end /\
  alertTriggered (state w') =
    match alert_triggered knifeInA with Some b => b | None => false end.
Proof.
  split; [reflexivity|].
  exact (response_for_earlier_image_is_shown detecting 0 knifeInA pictureB
           eq_refl).
Defined.

(** *** What is sent *)

Lemma fetched_app (e1 e2 : list Effect) :
  fetched (e1 ++ e2) = fetched e1 ++ fetched e2.
Proof. unfold fetched. apply flat_map_app. Qed.

Lemma step_sends (w : World) (ev : Event) (q : Request) :
  In q (fetched (snd (step w ev))) ->
  match req_resumes q with
  | AwaitDetect =>
      req_url q = detectImageUrl /\ noImage (req_body q) = false
  | AwaitStats => req_url q = statsUrl /\ req_body q = None
  end.
Proof.
  destruct ev as [|id r|id r|scope|result|t]; cbn.
  - intros [<-|[]]. cbn. auto.
  - unfold settle. destruct (existsb (resumes id AwaitStats) (inflight w));
      cbn; [|contradiction].
    destruct r as [|[|] [d|]]; cbn; contradiction.
  - unfold settle. destruct (existsb (resumes id AwaitDetect) (inflight w));
      cbn; [|contradiction].
    destruct r as [|[|] [d|]]; cbn; try contradiction.
    intros [<-|[]]. cbn. auto.
  - unfold detectWeapons. destruct (noImage (image scope)) eqn:Ni; cbn;
      [contradiction|].
    intros [<-|[]]. cbn. auto.
  - contradiction.
  - contradiction.
Qed.

(** X14.  Whatever happens, the component sends only two kinds of
    request: a request to [/stats] without a body, and a request to
    [/detect-image] whose body is a non-empty image.  It never posts a
    missing or empty image to the detector. *)
Theorem only_proper_requests_are_sent (evs : list Event) :
  forall (w : World) (q : Request),
    In q (fetched (snd (run w evs))) ->
    match req_resumes q with
    | AwaitDetect =>
        req_url q = detectImageUrl /\ noImage (req_body q) = false
    | AwaitStats => req_url q = statsUrl /\ req_body q = None
    end.
Proof.
  induction evs as [|ev evs IH]; intros w q; cbn [run].
  - intros [].
  - pose proof (step_sends w ev q) as Hs.
    destruct (step w ev) as [w1 e1]. cbn [snd] in Hs.
    specialize (IH w1 q). destruct (run w1 evs) as [w2 e2].
    cbn [snd] in *. rewrite fetched_app. intros H.
    apply in_app_or in H as [H|H]; [exact (Hs H)|exact (IH H)].
Qed.

Lemma only_proper_requests_are_sent_witness :
  let q := {| req_id := 0; req_url := detectImageUrl;
              req_body := Some pictureA; req_resumes := AwaitDetect |} in
  req_url q = detectImageUrl /\ noImage (req_body q) = false.
Proof.
  intros q.
  apply (only_proper_requests_are_sent
           [ImageLoaded pictureA;
            DetectClicked (state (after initial [ImageLoaded pictureA]))]
           initial q).
  left. reflexivity.
Defined.

(** *** Where the statistics come from *)

Lemma noGoodStats_step (w : World) (ev : Event) :
  noGoodStats ev = true -> stats (state (fst (step w ev))) = stats (state w).
Proof.
  destruct ev as [|id r|id r|scope|result|t]; cbn; intros H.
  - reflexivity.
  - unfold settle. destruct (existsb (resumes id AwaitStats) (inflight w));
      [|reflexivity].
    destruct r as [|[|] [d|]]; cbn in *; try reflexivity; discriminate.
  - unfold settle. destruct (existsb (resumes id AwaitDetect) (inflight w));
      [|reflexivity].
    destruct r as [|[|] [d|]]; reflexivity.
  - unfold detectWeapons. destruct (noImage (image scope)); reflexivity.
  - reflexivity.
  - reflexivity.
Qed.

(** X15.  The statistics on screen change only when a [/stats] response
    arrives that is ok and decodes.  Nothing else touches them: not a
    detection (whose success merely requests a refresh), not the choice of
    an image, not a change of tab, not a failed poll. *)
Theorem only_a_stats_response_changes_the_statistics (evs : list Event) :
  forall w : World,
    forallb noGoodStats evs = true ->
    stats (state (after w evs)) = stats (state w) /\
    statCards (state (after w evs)) = statCards (state w).
Proof.
  induction evs as [|ev evs IH]; intros w Hall; [split; reflexivity|].
  cbn in Hall. apply andb_true_iff in Hall as [Hev Hall].
  pose proof (noGoodStats_step w ev Hev) as Hs.
  unfold after in *. cbn [run]. destruct (step w ev) as [w1 e1].
  cbn [fst] in *. destruct (IH w1 Hall) as [H1 H2].
  destruct (run w1 evs) as [w2 e2]. cbn [fst] in *.
  unfold statCards in *. rewrite H1, Hs. auto.
Qed.

Lemma only_a_stats_response_changes_the_statistics_witness :
  let evs := [ImageLoaded pictureA;
              DetectClicked (state (after noImageChosen [ImageLoaded pictureA]));
              DetectSettles 0 (Fetch.Response true (Some knifeInA));
              TabClicked webcam;
              StatsSettles 1 (Fetch.Response false None)] in
  stats (state (after noImageChosen evs)) = Some lastGood /\
  statCards (state (after noImageChosen evs)) = Some (12, 5, 7, 0).
Proof.
  intros evs.
  exact (only_a_stats_response_changes_the_statistics evs noImageChosen
           eq_refl).
Defined.

End AppMore.
